(** * simple_example.py: the BLE frontend adapter

    A shallow embedding of [src/simple/simple_example.py]: the class
    [FrontendData] (its throttle state, its four SDK callbacks and
    [shutdown]) and the entry point [main].

    Python floats are IEEE-754 binary64 values; they are modelled by
    Rocq's primitive [float], which is the same format.  Console output
    and calls into the vendor SDK are recorded, in program order, in a
    trace of [Effect]s. *)

From Stdlib Require Import ZArith NArith Nnat List String Ascii Bool Lia.
From Stdlib Require Import Floats DecimalString.
Import ListNotations.
Local Open Scope string_scope.
#[local] Set Warnings "-inexact-float".

(** ** Python's [format(x, '.2f')] on a binary64 float *)

Module PyFloat.

(** Decimal digits of a natural number, as [str(int)] writes them. *)
Definition str_N (n : N) : string :=
  NilZero.string_of_uint (N.to_uint n).

(** The two digits after the decimal point. *)
Definition two_digits (n : N) : string :=
  (if (n <? 10)%N then "0" else "") ++ str_N n.

(** [hundredths m e] is the integer nearest to [m * 2^e * 100], ties
    going to the even one: the correctly rounded conversion that
    CPython's float formatting performs. *)
Definition hundredths (m : positive) (e : Z) : N :=
  match e with
  | Zneg p =>
      let num := (Npos m * 100)%N in
      let den := N.shiftl 1 (Npos p) in
      let q := (num / den)%N in
      let r := (num mod den)%N in
      match (2 * r ?= den)%N with
      | Lt => q
      | Gt => N.succ q
      | Eq => if N.even q then q else N.succ q
      end
  | _ => (N.shiftl (Npos m) (Z.to_N e) * 100)%N
  end.

Definition sign_str (s : bool) : string := if s then "-" else "".

(** Fixed-point rendering of [(-1)^s * h / 100]. *)
Definition fixed2 (s : bool) (h : N) : string :=
  sign_str s ++ str_N (h / 100) ++ "." ++ two_digits (h mod 100).

Definition format_2f_spec (x : spec_float) : string :=
  match x with
  | S754_nan => "nan"
  | S754_infinity s => sign_str s ++ "inf"
  | S754_zero s => fixed2 s 0
  | S754_finite s m e => fixed2 s (hundredths m e)
  end.

(** [f'{x:.2f}'] *)
Definition format_2f (x : float) : string := format_2f_spec (Prim2SF x).

End PyFloat.

(** ** Python values, exceptions and the vendor SDK's vocabulary *)

(** The objects an SDK callback can be handed as positional arguments. *)
Inductive PyObj :=
| PyNone
| PyBool (b : bool)
| PyInt (z : Z)
| PyFloat (f : float)
| PyStr (s : string).

Inductive Exception :=
| IndexError
| KeyboardInterrupt
| SystemExit
| OtherException (name : string).

(** Modelled from the spec: the package [adhawkapi] is the external SDK and
    is not part of the repository.  Its enumerations are given the members
    the script names; [other] stands for any member the script does not
    name.  A telemetry record carries a timestamp, the eye mask (the
    binocular capability flag) and four optional field groups of fixed
    arity. *)
Module adhawkapi.

Module PacketType.
Inductive t := EYETRACKING_STREAM | EVENTS.
End PacketType.

Module Events.
Inductive t := BLINK | EYE_CLOSED | EYE_OPENED | other (code : N).

Definition eqb (a b : t) : bool :=
  match a, b with
  | BLINK, BLINK | EYE_CLOSED, EYE_CLOSED | EYE_OPENED, EYE_OPENED => true
  | other m, other n => N.eqb m n
  | _, _ => false
  end.
End Events.

Module EyeMask.
Inductive t := BINOCULAR | other (code : N).

Definition eqb (a b : t) : bool :=
  match a, b with
  | BINOCULAR, BINOCULAR => true
  | other m, other n => N.eqb m n
  | _, _ => false
  end.
End EyeMask.

Module EyeTrackingStreamTypes.
Inductive t := GAZE | EYE_CENTER | PUPIL_DIAMETER | IMU_QUATERNION | other (code : N).
End EyeTrackingStreamTypes.

Module EventControlBit.
Inductive t := BLINK | EYE_CLOSE_OPEN | other (code : N).
End EventControlBit.

Record EyeTrackingStreamData := {
  timestamp : float;
  eye_mask : EyeMask.t;
  gaze : option (float * float * float * float);
  eye_center : option (float * float * float * float * float * float);
  pupil_diameter : option (float * float);
  imu_quaternion : option (float * float * float * float)
}.

End adhawkapi.
Import adhawkapi.

(** ** Runs: trace, final state and completion *)

Inductive Completion (A : Type) :=
| Return (a : A)
| Raise (e : Exception).
Arguments Return {A} a.
Arguments Raise {A} e.

(** What running a piece of Python leaves behind: the effects it performed
    (in order), the object state it ended in, and how it completed. *)
Record Run (E S A : Type) := mkRun {
  trace : list E;
  final : S;
  completion : Completion A
}.
Arguments mkRun {E S A}.
Arguments trace {E S A}.
Arguments final {E S A}.
Arguments completion {E S A}.

Definition Py (E S A : Type) : Type := S -> Run E S A.

Section PyMonad.
Context {E S : Type}.

Definition ret {A} (a : A) : Py E S A :=
  fun s => mkRun [] s (Return a).

Definition bind {A B} (m : Py E S A) (k : A -> Py E S B) : Py E S B :=
  fun s =>
    let r := m s in
    match completion r with
    | Return a =>
        let r' := k a (final r) in
        mkRun (trace r ++ trace r') (final r') (completion r')
    | Raise e => mkRun (trace r) (final r) (Raise e)
    end.

Definition raise {A} (e : Exception) : Py E S A :=
  fun s => mkRun [] s (Raise e).

Definition perform (e : E) : Py E S unit :=
  fun s => mkRun [e] s (Return tt).

Definition get : Py E S S :=
  fun s => mkRun [] s (Return s).

Definition put (s' : S) : Py E S unit :=
  fun _ => mkRun [] s' (Return tt).

(** [if c: body] *)
Definition when (c : bool) (body : Py E S unit) : Py E S unit :=
  if c then body else ret tt.

(** [if x is not None: body(x)] *)
Definition when_not_None {A} (x : option A) (body : A -> Py E S unit) : Py E S unit :=
  match x with
  | Some a => body a
  | None => ret tt
  end.

(** [try: body except (KeyboardInterrupt, SystemExit): handler] *)
Definition try_except_interrupt (body handler : Py E S unit) : Py E S unit :=
  fun s =>
    let r := body s in
    match completion r with
    | Raise KeyboardInterrupt | Raise SystemExit =>
        let r' := handler (final r) in
        mkRun (trace r ++ trace r') (final r') (completion r')
    | _ => r
    end.

End PyMonad.

Declare Scope py_scope.
Delimit Scope py_scope with py.
Notation "x <- m ;; k" := (bind m (fun x => k))
  (at level 61, m at next level, right associativity) : py_scope.
Notation "m ;; k" := (bind m (fun _ => k))
  (at level 61, right associativity) : py_scope.

(** ** The adapter: class [FrontendData] *)

(** The instance attributes: the API object (identified here by the device
    name it was created for) and the timestamp of the last console print. *)
Record FrontendData := {
  _api : string;
  _last_console_print : float
}.

(** The bound methods handed to the SDK as handlers. *)
Inductive Method :=
| handle_et_data
| handle_events
| handle_tracker_connect
| handle_tracker_disconnect.

#[local] Set Warnings "-register-all".

(** Console output, calls on the SDK's [FrontendApi] object, and
    [time.sleep].  A completion callback is a Python callable: it takes
    the positional arguments the SDK passes and runs against the adapter. *)
Inductive Effect :=
| print (line : string)
| FrontendApi (devname : string)
| register_stream_handler (stream : PacketType.t) (handler : Method)
| start (tracker_connect_cb tracker_disconnect_cb : Method)
| api_shutdown
| set_et_stream_rate (rate : Z)
    (callback : list PyObj -> FrontendData -> Run Effect FrontendData PyObj)
| set_et_stream_control (types : list EyeTrackingStreamTypes.t) (enable : bool)
    (callback : list PyObj -> FrontendData -> Run Effect FrontendData PyObj)
| set_event_control (bit : EventControlBit.t) (enable : Z)
    (callback : list PyObj -> FrontendData -> Run Effect FrontendData PyObj)
| time_sleep (secs : Z).

Definition Callback : Type := list PyObj -> Py Effect FrontendData PyObj.

Local Open Scope py_scope.
Local Open Scope float_scope.

Section Handlers.

Import PyFloat.

(** [self._last_console_print = t] *)
Definition set_last_console_print (t : float) : Py Effect FrontendData unit :=
  self <- get ;;
  put {| _api := _api self; _last_console_print := t |}.

(** [__init__] *)
Definition __init__ (devname : string) : Run Effect FrontendData unit :=
  mkRun
    [ FrontendApi devname;
      register_stream_handler PacketType.EYETRACKING_STREAM handle_et_data;
      register_stream_handler PacketType.EVENTS handle_events;
      start handle_tracker_connect handle_tracker_disconnect ]
    {| _api := devname; _last_console_print := 0 |}
    (Return tt).

Definition shutdown : Py Effect FrontendData unit :=
  perform api_shutdown.

Definition _handle_et_data (et_data : EyeTrackingStreamData) : Py Effect FrontendData unit :=
  self <- get ;;
  if timestamp et_data <? _last_console_print self + 1 then
    ret tt
  else
    set_last_console_print (timestamp et_data) ;;
    when_not_None (gaze et_data) (fun '(xvec, yvec, zvec, vergence) =>
      perform (print ("Gaze=" ++ format_2f xvec ++ ",y=" ++ format_2f yvec
                      ++ ",z=" ++ format_2f zvec
                      ++ ",vergence=" ++ format_2f vergence))) ;;
    when_not_None (eye_center et_data) (fun '(rxvec, ryvec, rzvec, lxvec, lyvec, lzvec) =>
      when (EyeMask.eqb (eye_mask et_data) EyeMask.BINOCULAR)
        (perform (print ("Eye center: Left=(x=" ++ format_2f lxvec
                         ++ ",y=" ++ format_2f lyvec
                         ++ ",z=" ++ format_2f lzvec ++ ") "
                         ++ "Right=(x=" ++ format_2f rxvec
                         ++ ",y=" ++ format_2f ryvec
                         ++ ",z=" ++ format_2f rzvec ++ ")")))) ;;
    when_not_None (pupil_diameter et_data) (fun '(rdiameter, ldiameter) =>
      when (EyeMask.eqb (eye_mask et_data) EyeMask.BINOCULAR)
        (perform (print ("Pupil diameter: Left=" ++ format_2f ldiameter
                         ++ " Right=" ++ format_2f rdiameter)))) ;;
    when_not_None (imu_quaternion et_data) (fun '(x, y, z, w) =>
      when (EyeMask.eqb (eye_mask et_data) EyeMask.BINOCULAR)
        (perform (print ("IMU: x=" ++ format_2f x ++ ",y=" ++ format_2f y
                         ++ ",z=" ++ format_2f z ++ ",w=" ++ format_2f w)))).

(** Python's [str] of a float is its shortest round-tripping decimal;
    the handlers only pass it on to [print], so it is left a parameter. *)
Variable float_repr : float -> string.

(** [str(obj)], which an f-string field [{obj}] applies. *)
Definition str (obj : PyObj) : string :=
  match obj with
  | PyNone => "None"
  | PyBool true => "True"
  | PyBool false => "False"
  | PyInt z => NilZero.string_of_int (Z.to_int z)
  | PyFloat f => float_repr f
  | PyStr s => s
  end.

(** [args[0]] *)
Definition args_0 {S} (args : list PyObj) : Py Effect S PyObj :=
  match args with
  | a :: _ => ret a
  | [] => raise IndexError
  end.

(** A static method: it runs against no instance state. *)
Definition _handle_events (event_type : Events.t) (timestamp : PyObj)
    (args : list PyObj) : Py Effect unit unit :=
  when (Events.eqb event_type Events.BLINK)
    (duration <- args_0 args ;;
     perform (print ("Got blink: " ++ str timestamp ++ " " ++ str duration))) ;;
  when (Events.eqb event_type Events.EYE_CLOSED)
    (eye_idx <- args_0 args ;;
     perform (print ("Eye Close: " ++ str timestamp ++ " " ++ str eye_idx))) ;;
  when (Events.eqb event_type Events.EYE_OPENED)
    (eye_idx <- args_0 args ;;
     perform (print ("Eye Open: " ++ str timestamp ++ " " ++ str eye_idx))).

(** [lambda *args: None] *)
Definition lambda_args_None : Callback :=
  fun _ => ret PyNone.

Definition _handle_tracker_connect : Py Effect FrontendData unit :=
  perform (print "Tracker connected") ;;
  perform (set_et_stream_rate 60 lambda_args_None) ;;
  perform (set_et_stream_control
             [ EyeTrackingStreamTypes.GAZE;
               EyeTrackingStreamTypes.EYE_CENTER;
               EyeTrackingStreamTypes.PUPIL_DIAMETER;
               EyeTrackingStreamTypes.IMU_QUATERNION ]
             true lambda_args_None) ;;
  perform (set_event_control EventControlBit.BLINK 1 lambda_args_None) ;;
  perform (set_event_control EventControlBit.EYE_CLOSE_OPEN 1 lambda_args_None).

Definition _handle_tracker_disconnect : Py Effect FrontendData unit :=
  perform (print "Tracker disconnected") ;;
  set_last_console_print 0.

End Handlers.

(** ** The entry point: [main] *)

(** What the environment does to one turn of the foreground loop
    [while True: time.sleep(1)]: the sleep returns, or an exception is
    raised in the main thread while it sleeps (Ctrl-C raises
    [KeyboardInterrupt]). *)
Inductive Turn :=
| wakes
| interrupted (e : Exception).

(** The loop under a finite script of turns.  It has no exit of its own:
    [None] says the script ended with the loop still running. *)
Fixpoint sleep_loop (script : list Turn) (self : FrontendData)
    : option (Run Effect FrontendData unit) :=
  match script with
  | [] => None
  | wakes :: script' =>
      match sleep_loop script' self with
      | Some r => Some (mkRun (time_sleep 1 :: trace r) (final r) (completion r))
      | None => None
      end
  | interrupted e :: _ => Some (mkRun [time_sleep 1] self (Raise e))
  end.

(** [main], after [argparse] has produced [args.devname]. *)
Definition main (devname : string) (script : list Turn)
    : option (Run Effect FrontendData unit) :=
  let frontend := __init__ devname in
  match sleep_loop script (final frontend) with
  | Some body =>
      let r := try_except_interrupt (fun _ => body) shutdown (final frontend) in
      Some (mkRun (trace frontend ++ trace r) (final r) (completion r))
  | None => None
  end.

(** The status the interpreter exits with once [main] has completed. *)
Definition exit_code (c : Completion unit) : Z :=
  match c with
  | Return _ => 0
  | Raise _ => 1
  end.

(** ** Console lines as the specification words them *)

Module Spec.
Import PyFloat.

Definition gaze_line (x y z v : float) : string :=
  "Gaze=" ++ format_2f x ++ ",y=" ++ format_2f y ++ ",z=" ++ format_2f z
  ++ ",vergence=" ++ format_2f v.

Definition eye_center_line (lx ly lz rx ry rz : float) : string :=
  "Eye center: Left=(x=" ++ format_2f lx ++ ",y=" ++ format_2f ly
  ++ ",z=" ++ format_2f lz ++ ") Right=(x=" ++ format_2f rx
  ++ ",y=" ++ format_2f ry ++ ",z=" ++ format_2f rz ++ ")".

Definition pupil_diameter_line (l r : float) : string :=
  "Pupil diameter: Left=" ++ format_2f l ++ " Right=" ++ format_2f r.

Definition imu_line (x y z w : float) : string :=
  "IMU: x=" ++ format_2f x ++ ",y=" ++ format_2f y ++ ",z=" ++ format_2f z
  ++ ",w=" ++ format_2f w.
End Spec.

(** The lines of a trace, and those among them that open with a tag. *)
Definition printed (t : list Effect) : list string :=
  flat_map (fun e => match e with print l => [l] | _ => [] end) t.

Definition lines_with (tag : string) (t : list Effect) : list string :=
  filter (String.prefix tag) (printed t).

Definition is_api_shutdown (e : Effect) : bool :=
  match e with api_shutdown => true | _ => false end.

(** The lines [_handle_et_data] has to print for a record that passes the
    throttle: one per field group that is present and, for the three
    binocular groups, enabled by the eye mask.  The tuples are read in the
    order the handler unpacks them. *)
Definition console_lines (et_data : EyeTrackingStreamData) : list string :=
  let binocular := EyeMask.eqb (eye_mask et_data) EyeMask.BINOCULAR in
  match gaze et_data with
  | Some (x, y, z, v) => [Spec.gaze_line x y z v]
  | None => []
  end ++
  match eye_center et_data with
  | Some (rx, ry, rz, lx, ly, lz) =>
      if binocular then [Spec.eye_center_line lx ly lz rx ry rz] else []
  | None => []
  end ++
  match pupil_diameter et_data with
  | Some (r, l) => if binocular then [Spec.pupil_diameter_line l r] else []
  | None => []
  end ++
  match imu_quaternion et_data with
  | Some (x, y, z, w) => if binocular then [Spec.imu_line x y z w] else []
  | None => []
  end.

(** The event types [_handle_events] has a branch for. *)
Definition recognised (event_type : Events.t) : Prop :=
  event_type = Events.BLINK \/ event_type = Events.EYE_CLOSED \/
  event_type = Events.EYE_OPENED.


(** ** Sample inputs *)

Definition fresh : FrontendData :=
  {| _api := "AA:BB:CC"; _last_console_print := 0 |}.

Definition printed_at_5 : FrontendData :=
  {| _api := "AA:BB:CC"; _last_console_print := 5 |}.

(** The record of the specification's scenario. *)
Definition gaze_record : EyeTrackingStreamData :=
  {| timestamp := 1.2; eye_mask := EyeMask.other 1;
     gaze := Some (0.1, 0.2, 0.3, 0.4);
     eye_center := None; pupil_diameter := None; imu_quaternion := None |}.

Definition binocular_record : EyeTrackingStreamData :=
  {| timestamp := 1.5; eye_mask := EyeMask.BINOCULAR;
     gaze := None;
     eye_center := Some (1, 2, 3, 4, 5, 6);
     pupil_diameter := Some (7, 8);
     imu_quaternion := None |}.

Definition monocular_record : EyeTrackingStreamData :=
  {| timestamp := 2.5; eye_mask := EyeMask.other 1;
     gaze := None;
     eye_center := Some (1, 2, 3, 4, 5, 6);
     pupil_diameter := Some (7, 8);
     imu_quaternion := Some (0, 0, 0, 1) |}.

Definition early_record : EyeTrackingStreamData :=
  {| timestamp := 0.5; eye_mask := EyeMask.BINOCULAR;
     gaze := Some (0.1, 0.2, 0.3, 0.4);
     eye_center := None; pupil_diameter := None; imu_quaternion := None |}.

Definition empty_record : EyeTrackingStreamData :=
  {| timestamp := 2; eye_mask := EyeMask.BINOCULAR;
     gaze := None; eye_center := None; pupil_diameter := None;
     imu_quaternion := None |}.


(** ** Serial delivery *)

(** The SDK hands telemetry records to the registered handler one after
    the other: the handler runs to its end on one record before it is
    called on the next. *)
Fixpoint deliver (records : list EyeTrackingStreamData) : Py Effect FrontendData unit :=
  match records with
  | [] => ret tt
  | et_data :: records' => _handle_et_data et_data ;; deliver records'
  end.

Definition is_print (e : Effect) : bool :=
  match e with print _ => true | _ => false end.


Definition imu_record : EyeTrackingStreamData :=
  {| timestamp := 3; eye_mask := EyeMask.BINOCULAR;
     gaze := None; eye_center := None;
     pupil_diameter := Some (7, 8);
     imu_quaternion := Some (0, 0, 0, 1) |}.

(** The text each recognised event type opens its line with. *)
Definition event_label (event_type : Events.t) : option string :=
  match event_type with
  | Events.BLINK => Some "Got blink: "
  | Events.EYE_CLOSED => Some "Eye Close: "
  | Events.EYE_OPENED => Some "Eye Open: "
  | Events.other _ => None
  end.

Definition is_interrupted (t : Turn) : bool :=
  match t with interrupted _ => true | wakes => false end.

(** * Properties *)

(** ** Rendering to two decimals *)

(** [hundredths] is the value scaled by 100, exactly for a non-negative
    exponent and otherwise within half a unit of it, a tie going to the
    even neighbour. *)
Section TwoDecimals.
Import PyFloat.
Local Open Scope N_scope.

Lemma hundredths_exact (m : positive) (e : Z) :
  (0 <= e)%Z ->
  hundredths m e = Npos m * 2 ^ Z.to_N e * 100.
Proof.
  intros He. unfold hundredths.
  destruct e as [|p|p]; try lia; now rewrite N.shiftl_mul_pow2.
Qed.

Lemma hundredths_nearest (m p : positive) :
  let h := hundredths m (Zneg p) in
  2 * (h * 2 ^ Npos p) <= 2 * (Npos m * 100) + 2 ^ Npos p /\
  2 * (Npos m * 100) <= 2 * (h * 2 ^ Npos p) + 2 ^ Npos p.
Proof.
  cbv zeta. unfold hundredths.
  rewrite N.shiftl_1_l.
  set (num := Npos m * 100). set (den := 2 ^ Npos p).
  assert (Hden : den <> 0) by (apply N.pow_nonzero; discriminate).
  pose proof (N.div_mod num den Hden) as Hdm.
  pose proof (N.mod_lt num den Hden) as Hlt.
  set (q := num / den) in *. set (r := num mod den) in *.
  destruct (N.compare_spec (2 * r) den) as [Heq | Hl | Hg];
    [destruct (N.even q)|..]; nia.
Qed.

Lemma hundredths_tie_even (m p : positive) :
  2 * ((Npos m * 100) mod 2 ^ Npos p) = 2 ^ Npos p ->
  N.even (hundredths m (Zneg p)) = true.
Proof.
  intros Htie. unfold hundredths. rewrite N.shiftl_1_l, Htie, N.compare_refl.
  destruct (N.even (Npos m * 100 / 2 ^ Npos p)) eqn:E; [exact E|].
  rewrite N.even_succ, <- N.negb_even, E. reflexivity.
Qed.
End TwoDecimals.

Section Digits.
Import PyFloat.



End Digits.


(** ** Comparisons of binary64 values *)

Section FloatOrder.

Lemma SFcompare_swap (x y : spec_float) :
  SFcompare y x = option_map CompOpp (SFcompare x y).
Proof.
  destruct x as [sx| sx | |sx mx ex], y as [sy|sy| |sy my ey]; cbn;
    try reflexivity;
    try (destruct sx; reflexivity);
    try (destruct sy; reflexivity);
    try (destruct sx, sy; reflexivity).
  destruct sx, sy; cbn; try reflexivity;
    rewrite (Z.compare_antisym ex ey);
    destruct (ex ?= ey)%Z; cbn; try reflexivity;
    rewrite ?Pos.compare_cont_antisym; reflexivity.
Qed.

(** [a <= b] rules out [b < a]: the test the throttle makes. *)
Lemma leb_not_ltb (a b : float) :
  (a <=? b)%float = true -> (b <? a)%float = false.
Proof.
  rewrite leb_spec, ltb_spec. unfold SFleb, SFltb.
  rewrite (SFcompare_swap (Prim2SF a) (Prim2SF b)).
  destruct (SFcompare (Prim2SF a) (Prim2SF b)) as [[ | | ]|]; cbn; congruence.
Qed.

End FloatOrder.

(** ** The telemetry handler, case by case *)

Section Telemetry.

Variable self : FrontendData.
Variable et_data : EyeTrackingStreamData.

(** The early [return]: nothing is printed and nothing is written. *)
Lemma handle_et_data_throttled :
  (timestamp et_data <? _last_console_print self + 1) = true ->
  _handle_et_data et_data self = mkRun [] self (Return tt).
Proof.
  intros Hlt. unfold _handle_et_data, bind, get. cbn.
  rewrite Hlt. reflexivity.
Qed.

(** Past the guard the timestamp is stored first, then each group is
    looked at in turn. *)
Lemma handle_et_data_passed :
  (timestamp et_data <? _last_console_print self + 1) = false ->
  _handle_et_data et_data self =
    mkRun (map print (console_lines et_data))
          {| _api := _api self; _last_console_print := timestamp et_data |}
          (Return tt).
Proof.
  intros Hge. unfold _handle_et_data, console_lines, bind, get. cbn.
  rewrite Hge.
  destruct et_data as [ts mask g ec pd imu]; cbn.
  destruct g as [[[[x y] z] v]|],
           ec as [[[[[[rx ry] rz] lx] ly] lz]|],
           pd as [[rd ld]|],
           imu as [[[[qx qy] qz] qw]|],
           (EyeMask.eqb mask EyeMask.BINOCULAR); reflexivity.
Qed.

End Telemetry.

(** ** Reading console lines off a trace *)

Lemma printed_map_print (ls : list string) : printed (map print ls) = ls.
Proof.
  induction ls as [|l ls IH]; cbn; [reflexivity | now f_equal].
Qed.

Lemma lines_with_map_print (tag : string) (ls : list string) :
  lines_with tag (map print ls) = filter (String.prefix tag) ls.
Proof.
  unfold lines_with. now rewrite printed_map_print.
Qed.

Lemma EyeMask_eqb_eq (a b : EyeMask.t) : EyeMask.eqb a b = true <-> a = b.
Proof.
  destruct a as [|m], b as [|n]; cbn; split; intros H;
    try reflexivity; try discriminate.
  - apply N.eqb_eq in H. now subst.
  - injection H as ->. apply N.eqb_refl.
Qed.

Lemma EyeMask_not_binocular (m : EyeMask.t) :
  m <> EyeMask.BINOCULAR -> EyeMask.eqb m EyeMask.BINOCULAR = false.
Proof.
  intros Hm. destruct (EyeMask.eqb m EyeMask.BINOCULAR) eqn:E; [|reflexivity].
  apply EyeMask_eqb_eq in E. contradiction.
Qed.

Lemma prefix_nil (s : string) : String.prefix "" s = true.
Proof. destruct s; reflexivity. Qed.

#[local] Arguments PyFloat.format_2f : simpl never.

Ltac tag_check :=
  unfold Spec.gaze_line, Spec.eye_center_line, Spec.pupil_diameter_line,
    Spec.imu_line;
  cbn; rewrite ?prefix_nil; reflexivity.

(** Which of the four tags opens which of the four lines. *)
Section Tags.
Variables a b c d e f : float.

Lemma gaze_tags :
  String.prefix "Gaze=" (Spec.gaze_line a b c d) = true /\
  String.prefix "Eye center:" (Spec.gaze_line a b c d) = false /\
  String.prefix "Pupil diameter:" (Spec.gaze_line a b c d) = false /\
  String.prefix "IMU:" (Spec.gaze_line a b c d) = false.
Proof. repeat split; tag_check. Qed.

Lemma eye_center_tags :
  String.prefix "Gaze=" (Spec.eye_center_line a b c d e f) = false /\
  String.prefix "Eye center:" (Spec.eye_center_line a b c d e f) = true.
Proof. repeat split; tag_check. Qed.

Lemma pupil_diameter_tags :
  String.prefix "Gaze=" (Spec.pupil_diameter_line a b) = false /\
  String.prefix "Pupil diameter:" (Spec.pupil_diameter_line a b) = true.
Proof. repeat split; tag_check. Qed.

Lemma imu_tags :
  String.prefix "Gaze=" (Spec.imu_line a b c d) = false /\
  String.prefix "IMU:" (Spec.imu_line a b c d) = true.
Proof. repeat split; tag_check. Qed.
End Tags.

(** Among the lines of one record only the gaze line opens with [Gaze=]. *)
Lemma console_lines_gaze (r : EyeTrackingStreamData) (x y z v : float) :
  gaze r = Some (x, y, z, v) ->
  filter (String.prefix "Gaze=") (console_lines r) = [Spec.gaze_line x y z v].
Proof.
  intros Hg. unfold console_lines. rewrite Hg.
  destruct r as [ts mask g ec pd imu]; cbn [eye_center pupil_diameter imu_quaternion eye_mask].
  destruct ec as [[[[[[rx ry] rz] lx] ly] lz]|],
           pd as [[rd ld]|],
           imu as [[[[qx qy] qz] qw]|],
           (EyeMask.eqb mask EyeMask.BINOCULAR);
    cbn [filter app];
    rewrite ?(proj1 (gaze_tags x y z v)),
            ?(proj1 (eye_center_tags lx ly lz rx ry rz)),
            ?(proj1 (pupil_diameter_tags ld rd)),
            ?(proj1 (imu_tags qx qy qz qw));
    reflexivity.
Qed.

(** Without the binocular mask a record yields its gaze line at most. *)
Lemma console_lines_not_binocular (r : EyeTrackingStreamData) :
  eye_mask r <> EyeMask.BINOCULAR ->
  console_lines r =
    match gaze r with
    | Some (x, y, z, v) => [Spec.gaze_line x y z v]
    | None => []
    end.
Proof.
  intros Hm. unfold console_lines.
  rewrite (EyeMask_not_binocular _ Hm).
  destruct (gaze r) as [[[[x y] z] v]|],
           (eye_center r) as [[[[[[rx ry] rz] lx] ly] lz]|],
           (pupil_diameter r) as [[rd ld]|],
           (imu_quaternion r) as [[[[qx qy] qz] qw]|]; reflexivity.
Qed.

(** ** The throttle *)

(** C1: a telemetry record whose timestamp is below the last printed
    timestamp plus 1 prints nothing, whatever field groups it carries (and
    the adapter is left as it was). *)
Theorem throttled_record_is_silent (self : FrontendData) (et_data : EyeTrackingStreamData) :
  (timestamp et_data <? _last_console_print self + 1) = true ->
  printed (trace (_handle_et_data et_data self)) = [] /\
  trace (_handle_et_data et_data self) = [] /\
  final (_handle_et_data et_data self) = self.
Proof.
  intros Hlt. rewrite (handle_et_data_throttled self et_data Hlt).
  repeat split.
Qed.

Lemma throttled_record_is_silent_witness :
  printed (trace (_handle_et_data gaze_record printed_at_5)) = [] /\
  trace (_handle_et_data gaze_record printed_at_5) = [] /\
  final (_handle_et_data gaze_record printed_at_5) = printed_at_5.
Proof.
  apply (throttled_record_is_silent printed_at_5 gaze_record).
  reflexivity.
Defined.

(** C2: a record at or past the last printed timestamp plus 1 that carries a
    gaze (x, y, z, vergence) prints exactly one line opening with [Gaze=],
    and it is [Gaze=<x>,y=<y>,z=<z>,vergence=<v>] with each component in
    the [.2f] rendering. *)
Theorem gaze_line_printed_once (self : FrontendData) (et_data : EyeTrackingStreamData)
    (x y z v : float) :
  (_last_console_print self + 1 <=? timestamp et_data) = true ->
  gaze et_data = Some (x, y, z, v) ->
  lines_with "Gaze=" (trace (_handle_et_data et_data self))
    = [Spec.gaze_line x y z v].
Proof.
  intros Hge Hg.
  rewrite (handle_et_data_passed self et_data (leb_not_ltb _ _ Hge)).
  cbn [trace]. rewrite lines_with_map_print.
  now apply console_lines_gaze.
Qed.

Lemma gaze_line_printed_once_witness :
  lines_with "Gaze=" (trace (_handle_et_data gaze_record fresh))
    = ["Gaze=0.10,y=0.20,z=0.30,vergence=0.40"].
Proof.
  exact (gaze_line_printed_once fresh gaze_record 0.1 0.2 0.3 0.4
           eq_refl eq_refl).
Defined.

(** C6: when the eye mask is not BINOCULAR, the handler prints no
    [Eye center:] line, no [Pupil diameter:] line and no [IMU:] line,
    whether those groups are present or not. *)
Theorem binocular_groups_are_gated (self : FrontendData) (et_data : EyeTrackingStreamData) :
  eye_mask et_data <> EyeMask.BINOCULAR ->
  lines_with "Eye center:" (trace (_handle_et_data et_data self)) = [] /\
  lines_with "Pupil diameter:" (trace (_handle_et_data et_data self)) = [] /\
  lines_with "IMU:" (trace (_handle_et_data et_data self)) = [].
Proof.
  intros Hm.
  destruct (timestamp et_data <? _last_console_print self + 1) eqn:Hcmp.
  - rewrite (handle_et_data_throttled self et_data Hcmp). repeat split.
  - rewrite (handle_et_data_passed self et_data Hcmp). cbn [trace].
    rewrite !lines_with_map_print, (console_lines_not_binocular et_data Hm).
    destruct (gaze et_data) as [[[[x y] z] v]|]; cbn [filter];
      [|repeat split].
    destruct (gaze_tags x y z v) as (_ & Hec & Hpd & Himu).
    now rewrite Hec, Hpd, Himu.
Qed.

Lemma binocular_groups_are_gated_witness :
  eye_center monocular_record <> None /\
  (_last_console_print fresh + 1 <=? timestamp monocular_record) = true /\
  lines_with "Eye center:" (trace (_handle_et_data monocular_record fresh)) = [] /\
  lines_with "Pupil diameter:" (trace (_handle_et_data monocular_record fresh)) = [] /\
  lines_with "IMU:" (trace (_handle_et_data monocular_record fresh)) = [].
Proof.
  split; [discriminate|]. split; [reflexivity|].
  apply (binocular_groups_are_gated fresh monocular_record).
  discriminate.
Defined.

(** C9: the handler never writes [_api]; and when a record is at or past
    the last printed timestamp plus 1, the stored timestamp becomes the
    record's whatever its field groups are.  In particular a record with
    no gaze whose other groups are absent or gated off prints nothing, yet
    every record less than 1 after it is then discarded in silence. *)
Theorem passing_record_consumes_window (self : FrontendData) (et_data : EyeTrackingStreamData) :
  _api (final (_handle_et_data et_data self)) = _api self /\
  ((_last_console_print self + 1 <=? timestamp et_data) = true ->
   let after := final (_handle_et_data et_data self) in
   _last_console_print after = timestamp et_data /\
   completion (_handle_et_data et_data self) = Return tt /\
   (gaze et_data = None ->
    eye_mask et_data <> EyeMask.BINOCULAR \/
      (eye_center et_data = None /\ pupil_diameter et_data = None /\
       imu_quaternion et_data = None) ->
    trace (_handle_et_data et_data self) = []) /\
   (forall next : EyeTrackingStreamData,
      (timestamp next <? timestamp et_data + 1) = true ->
      trace (_handle_et_data next after) = [] /\
      final (_handle_et_data next after) = after)).
Proof.
  split.
  - destruct (timestamp et_data <? _last_console_print self + 1) eqn:Hcmp.
    + now rewrite (handle_et_data_throttled self et_data Hcmp).
    + now rewrite (handle_et_data_passed self et_data Hcmp).
  - intros Hge after. subst after.
    rewrite (handle_et_data_passed self et_data (leb_not_ltb _ _ Hge)).
    cbn [final trace completion _last_console_print].
    repeat split.
    + intros Hg [Hm | (Hec & Hpd & Himu)].
      * rewrite (console_lines_not_binocular et_data Hm), Hg. reflexivity.
      * unfold console_lines. rewrite Hg, Hec, Hpd, Himu. reflexivity.
    + now rewrite (handle_et_data_throttled _ next).
    + now rewrite (handle_et_data_throttled _ next).
Qed.

Lemma passing_record_consumes_window_witness :
  (_last_console_print fresh + 1 <=? timestamp empty_record) = true /\
  _api (final (_handle_et_data empty_record fresh)) = _api fresh /\
  _last_console_print (final (_handle_et_data empty_record fresh)) = 2 /\
  trace (_handle_et_data empty_record fresh) = [] /\
  trace (_handle_et_data monocular_record
           (final (_handle_et_data empty_record fresh))) = [].
Proof.
  destruct (passing_record_consumes_window fresh empty_record) as [Hapi Hpass].
  destruct (Hpass eq_refl) as (Hlast & _ & Hsilent & Hnext).
  split; [reflexivity|]. split; [exact Hapi|]. split; [exact Hlast|].
  split.
  - apply Hsilent; [reflexivity | right; repeat split].
  - apply (Hnext monocular_record). reflexivity.
Defined.

(** ** Reconnection *)

(** What [_handle_tracker_disconnect] does: one line, and the stored
    timestamp back at 0. *)
Lemma handle_tracker_disconnect_run (self : FrontendData) :
  _handle_tracker_disconnect self =
    mkRun [print "Tracker disconnected"]
          {| _api := _api self; _last_console_print := 0 |}
          (Return tt).
Proof. reflexivity. Qed.

(** C4, amended: the disconnect handler puts the stored timestamp back to
    0, so the next record is printed exactly when its timestamp is not
    below 1, however it compares with the timestamps printed before the
    disconnect; its lines are those of its present field groups, the
    binocular ones under the mask. *)
Theorem record_after_disconnect_prints (self : FrontendData) (et_data : EyeTrackingStreamData) :
  (1 <=? timestamp et_data) = true ->
  let reset := final (_handle_tracker_disconnect self) in
  _last_console_print reset = 0 /\
  printed (trace (_handle_et_data et_data reset)) = console_lines et_data /\
  _last_console_print (final (_handle_et_data et_data reset)) = timestamp et_data.
Proof.
  intros Hge reset. subst reset.
  rewrite handle_tracker_disconnect_run. cbn [final].
  rewrite handle_et_data_passed by (apply leb_not_ltb; exact Hge).
  cbn [trace final _last_console_print].
  now rewrite printed_map_print.
Qed.

Lemma record_after_disconnect_prints_witness :
  (timestamp gaze_record <? _last_console_print printed_at_5) = true /\
  printed (trace (_handle_et_data gaze_record
                    (final (_handle_tracker_disconnect printed_at_5))))
    = ["Gaze=0.10,y=0.20,z=0.30,vergence=0.40"].
Proof.
  split; [reflexivity|].
  exact (proj1 (proj2 (record_after_disconnect_prints printed_at_5 gaze_record eq_refl))).
Defined.

(** C4 as stated fails: after a print at timestamp 5 and a disconnect, a
    record at timestamp 0.5 (earlier than 5, gaze present) prints nothing,
    because 0.5 is below 0 + 1. *)
Lemma reset_still_discards_early_record :
  let before := final (_handle_et_data
                         {| timestamp := 5; eye_mask := EyeMask.BINOCULAR;
                            gaze := Some (0.1, 0.2, 0.3, 0.4);
                            eye_center := None; pupil_diameter := None;
                            imu_quaternion := None |} fresh) in
  let reset := final (_handle_tracker_disconnect before) in
  _last_console_print before = 5 /\
  _last_console_print reset = 0 /\
  (timestamp early_record <? 5) = true /\
  gaze early_record = Some (0.1, 0.2, 0.3, 0.4) /\
  trace (_handle_et_data early_record reset) = [].
Proof.
  cbv zeta. repeat split.
Qed.

(** ** The binocular groups *)

Ltac filter_lines :=
  unfold Spec.gaze_line, Spec.eye_center_line, Spec.pupil_diameter_line,
    Spec.imu_line;
  cbn; rewrite ?prefix_nil; cbn; reflexivity.

Section Binocular.

Variable r : EyeTrackingStreamData.
Hypothesis Hmask : eye_mask r = EyeMask.BINOCULAR.

Lemma console_lines_eye_center (rx ry rz lx ly lz : float) :
  eye_center r = Some (rx, ry, rz, lx, ly, lz) ->
  filter (String.prefix "Eye center:") (console_lines r)
    = [Spec.eye_center_line lx ly lz rx ry rz].
Proof.
  intros Hec. unfold console_lines. rewrite Hec, Hmask.
  destruct (gaze r) as [[[[x y] z] v]|],
           (pupil_diameter r) as [[rd ld]|],
           (imu_quaternion r) as [[[[qx qy] qz] qw]|]; filter_lines.
Qed.

Lemma console_lines_pupil_diameter (rd ld : float) :
  pupil_diameter r = Some (rd, ld) ->
  filter (String.prefix "Pupil diameter:") (console_lines r)
    = [Spec.pupil_diameter_line ld rd].
Proof.
  intros Hpd. unfold console_lines. rewrite Hpd, Hmask.
  destruct (gaze r) as [[[[x y] z] v]|],
           (eye_center r) as [[[[[[rx ry] rz] lx] ly] lz]|],
           (imu_quaternion r) as [[[[qx qy] qz] qw]|]; filter_lines.
Qed.

End Binocular.

(** C3, amended: for a record past the throttle with the BINOCULAR mask,
    an eye-center sample whose six values come right eye first,
    (rx, ry, rz, lx, ly, lz), prints the one line
    [Eye center: Left=(x=<lx>,y=<ly>,z=<lz>) Right=(x=<rx>,y=<ry>,z=<rz>)],
    and a pupil-diameter pair (right, left) prints the one line
    [Pupil diameter: Left=<left> Right=<right>], all in the [.2f]
    rendering. *)
Theorem binocular_lines_right_eye_first (self : FrontendData) (et_data : EyeTrackingStreamData) :
  (_last_console_print self + 1 <=? timestamp et_data) = true ->
  eye_mask et_data = EyeMask.BINOCULAR ->
  (forall rx ry rz lx ly lz : float,
     eye_center et_data = Some (rx, ry, rz, lx, ly, lz) ->
     lines_with "Eye center:" (trace (_handle_et_data et_data self))
       = [Spec.eye_center_line lx ly lz rx ry rz]) /\
  (forall right left : float,
     pupil_diameter et_data = Some (right, left) ->
     lines_with "Pupil diameter:" (trace (_handle_et_data et_data self))
       = [Spec.pupil_diameter_line left right]).
Proof.
  intros Hge Hmask.
  rewrite (handle_et_data_passed self et_data (leb_not_ltb _ _ Hge)).
  cbn [trace]. rewrite !lines_with_map_print.
  split; intros.
  - now apply console_lines_eye_center.
  - now apply console_lines_pupil_diameter.
Qed.

Lemma binocular_lines_right_eye_first_witness :
  lines_with "Eye center:" (trace (_handle_et_data binocular_record fresh))
    = ["Eye center: Left=(x=4.00,y=5.00,z=6.00) Right=(x=1.00,y=2.00,z=3.00)"] /\
  lines_with "Pupil diameter:" (trace (_handle_et_data binocular_record fresh))
    = ["Pupil diameter: Left=8.00 Right=7.00"].
Proof.
  destruct (binocular_lines_right_eye_first fresh binocular_record eq_refl eq_refl)
    as [Hec Hpd].
  split.
  - exact (Hec 1 2 3 4 5 6 eq_refl).
  - exact (Hpd 7 8 eq_refl).
Defined.

(** C3 as stated fails: read left eye first, the sample (1, 2, 3, 4, 5, 6)
    has left centre (1, 2, 3) and right centre (4, 5, 6), and the pair
    (7, 8) has left diameter 7; the handler prints the two eyes the other
    way round. *)
Lemma left_first_sample_prints_swapped :
  eye_mask binocular_record = EyeMask.BINOCULAR /\
  (_last_console_print fresh + 1 <=? timestamp binocular_record) = true /\
  eye_center binocular_record = Some (1, 2, 3, 4, 5, 6) /\
  pupil_diameter binocular_record = Some (7, 8) /\
  printed (trace (_handle_et_data binocular_record fresh))
    = ["Eye center: Left=(x=4.00,y=5.00,z=6.00) Right=(x=1.00,y=2.00,z=3.00)";
       "Pupil diameter: Left=8.00 Right=7.00"] /\
  Spec.eye_center_line 1 2 3 4 5 6
    = "Eye center: Left=(x=1.00,y=2.00,z=3.00) Right=(x=4.00,y=5.00,z=6.00)" /\
  Spec.pupil_diameter_line 7 8 = "Pupil diameter: Left=7.00 Right=8.00" /\
  ~ In (Spec.eye_center_line 1 2 3 4 5 6)
       (printed (trace (_handle_et_data binocular_record fresh))) /\
  ~ In (Spec.pupil_diameter_line 7 8)
       (printed (trace (_handle_et_data binocular_record fresh))).
Proof.
  repeat match goal with |- _ /\ _ => split end; try reflexivity.
  - vm_compute. intros [H | [H | []]]; discriminate H.
  - vm_compute. intros [H | [H | []]]; discriminate H.
Qed.

(** ** Events *)

Section Events.

Variable float_repr : float -> string.
Variable timestamp : PyObj.
Variable args : list PyObj.

(** The three tests in a row leave at most one branch to run. *)
Lemma handle_events_blink :
  _handle_events float_repr Events.BLINK timestamp args tt =
    match args with
    | duration :: _ =>
        mkRun [print ("Got blink: " ++ str float_repr timestamp ++ " "
                      ++ str float_repr duration)] tt (Return tt)
    | [] => mkRun [] tt (Raise IndexError)
    end.
Proof. destruct args; reflexivity. Qed.

Lemma handle_events_eye_closed :
  _handle_events float_repr Events.EYE_CLOSED timestamp args tt =
    match args with
    | eye_idx :: _ =>
        mkRun [print ("Eye Close: " ++ str float_repr timestamp ++ " "
                      ++ str float_repr eye_idx)] tt (Return tt)
    | [] => mkRun [] tt (Raise IndexError)
    end.
Proof. destruct args; reflexivity. Qed.

Lemma handle_events_eye_opened :
  _handle_events float_repr Events.EYE_OPENED timestamp args tt =
    match args with
    | eye_idx :: _ =>
        mkRun [print ("Eye Open: " ++ str float_repr timestamp ++ " "
                      ++ str float_repr eye_idx)] tt (Return tt)
    | [] => mkRun [] tt (Raise IndexError)
    end.
Proof. destruct args; reflexivity. Qed.

Lemma handle_events_other (code : N) :
  _handle_events float_repr (Events.other code) timestamp args tt =
    mkRun [] tt (Return tt).
Proof. reflexivity. Qed.

End Events.

(** C7: for an event type other than BLINK, EYE_CLOSED and EYE_OPENED the
    handler prints nothing and returns normally, whatever the timestamp
    and the extra arguments (none included). *)
Theorem unrecognised_event_is_ignored (float_repr : float -> string)
    (event_type : Events.t) (timestamp : PyObj) (args : list PyObj) :
  event_type <> Events.BLINK ->
  event_type <> Events.EYE_CLOSED ->
  event_type <> Events.EYE_OPENED ->
  trace (_handle_events float_repr event_type timestamp args tt) = [] /\
  completion (_handle_events float_repr event_type timestamp args tt) = Return tt.
Proof.
  intros Hb Hc Ho.
  destruct event_type as [ | | |code]; try contradiction.
  rewrite handle_events_other. split; reflexivity.
Qed.

Lemma unrecognised_event_is_ignored_witness :
  trace (_handle_events (fun _ => "0.3") (Events.other 4) (PyInt 5) [] tt) = [] /\
  completion (_handle_events (fun _ => "0.3") (Events.other 4) (PyInt 5) [] tt)
    = Return tt.
Proof.
  apply (unrecognised_event_is_ignored (fun _ => "0.3") (Events.other 4) (PyInt 5) []);
    discriminate.
Defined.

(** C10: for a recognised event type the handler returns normally exactly
    when at least one extra argument is supplied; with none, [args[0]]
    raises IndexError before anything is printed. *)
Theorem recognised_event_needs_an_argument (float_repr : float -> string)
    (event_type : Events.t) (timestamp : PyObj) :
  recognised event_type ->
  (_handle_events float_repr event_type timestamp [] tt
     = mkRun [] tt (Raise IndexError)) /\
  (forall (first : PyObj) (rest : list PyObj),
     completion (_handle_events float_repr event_type timestamp (first :: rest) tt)
       = Return tt /\
     List.length (printed (trace (_handle_events float_repr event_type timestamp
                               (first :: rest) tt))) = 1%nat).
Proof.
  intros [-> | [-> | ->]].
  - rewrite handle_events_blink. split; [reflexivity|]. intros first rest.
    rewrite handle_events_blink. split; reflexivity.
  - rewrite handle_events_eye_closed. split; [reflexivity|]. intros first rest.
    rewrite handle_events_eye_closed. split; reflexivity.
  - rewrite handle_events_eye_opened. split; [reflexivity|]. intros first rest.
    rewrite handle_events_eye_opened. split; reflexivity.
Qed.

Lemma recognised_event_needs_an_argument_witness :
  _handle_events (fun _ => "0.3") Events.BLINK (PyInt 5) [] tt
    = mkRun [] tt (Raise IndexError) /\
  _handle_events (fun _ => "0.3") Events.BLINK (PyInt 5) [PyFloat 0.3] tt
    = mkRun [print "Got blink: 5 0.3"] tt (Return tt).
Proof.
  split.
  - apply (recognised_event_needs_an_argument (fun _ => "0.3") Events.BLINK (PyInt 5)).
    left. reflexivity.
  - reflexivity.
Defined.

(** ** Connection set-up *)

(** C5: the connect handler prints its line and then makes exactly four
    calls on the API: the stream rate set to 60, the four stream types
    GAZE, EYE_CENTER, PUPIL_DIAMETER, IMU_QUATERNION enabled in one call,
    and the BLINK and EYE_CLOSE_OPEN event bits enabled in one call each.
    Every callback passed along does nothing whatever it is called with;
    the handler itself returns without waiting and leaves the adapter as
    it was. *)
Theorem connect_configures_the_tracker (self : FrontendData) :
  exists cb_rate cb_control cb_blink cb_eye : Callback,
    _handle_tracker_connect self =
      mkRun [ print "Tracker connected";
              set_et_stream_rate 60 cb_rate;
              set_et_stream_control
                [ EyeTrackingStreamTypes.GAZE;
                  EyeTrackingStreamTypes.EYE_CENTER;
                  EyeTrackingStreamTypes.PUPIL_DIAMETER;
                  EyeTrackingStreamTypes.IMU_QUATERNION ] true cb_control;
              set_event_control EventControlBit.BLINK 1 cb_blink;
              set_event_control EventControlBit.EYE_CLOSE_OPEN 1 cb_eye ]
            self (Return tt) /\
    (forall cb : Callback, In cb [cb_rate; cb_control; cb_blink; cb_eye] ->
       forall (args : list PyObj) (s : FrontendData),
         cb args s = mkRun [] s (Return PyNone)).
Proof.
  exists lambda_args_None, lambda_args_None, lambda_args_None, lambda_args_None.
  split; [reflexivity|].
  intros cb Hin args s.
  repeat (destruct Hin as [<- | Hin]; [reflexivity|]).
  destruct Hin.
Qed.

(** ** The foreground loop *)

(** The loop runs until the first exception: after [n] quiet turns it has
    slept [n + 1] times and completes by raising it. *)
Lemma sleep_loop_until_raise (n : nat) (e : Exception) (rest : list Turn)
    (self : FrontendData) :
  sleep_loop (repeat wakes n ++ interrupted e :: rest) self
    = Some (mkRun (repeat (time_sleep 1) (S n)) self (Raise e)).
Proof.
  induction n as [|n IH]; cbn [repeat app sleep_loop].
  - reflexivity.
  - rewrite IH. reflexivity.
Qed.

(** With no exception in the script the loop is still running at its end. *)
Lemma sleep_loop_keeps_running (n : nat) (self : FrontendData) :
  sleep_loop (repeat wakes n) self = None.
Proof.
  induction n as [|n IH]; cbn [repeat sleep_loop]; [|rewrite IH]; reflexivity.
Qed.

Lemma count_shutdown_sleeps (n : nat) :
  List.length (filter is_api_shutdown (repeat (time_sleep 1) n)) = 0%nat.
Proof.
  induction n as [|n IH]; [reflexivity | exact IH].
Qed.

(** C8: whatever the device name, and after any number of quiet turns of
    the sleep loop, a KeyboardInterrupt raised in the loop is caught by
    [main]: [shutdown] is called on the API exactly once, as the last
    thing the program does, [main] returns normally and the exit status
    is 0. *)
Theorem interrupt_shuts_down_once (devname : string) (n : nat) (rest : list Turn) :
  exists run : Run Effect FrontendData unit,
    main devname (repeat wakes n ++ interrupted KeyboardInterrupt :: rest)
      = Some run /\
    trace run = (trace (__init__ devname)
                 ++ repeat (time_sleep 1) (S n) ++ [api_shutdown])%list /\
    List.length (filter is_api_shutdown (trace run)) = 1%nat /\
    completion run = Return tt /\
    exit_code (completion run) = 0%Z.
Proof.
  unfold main. rewrite sleep_loop_until_raise.
  eexists. split; [reflexivity|].
  cbn [trace completion final try_except_interrupt shutdown perform __init__].
  repeat split.
  rewrite filter_app, length_app.
  cbn [filter is_api_shutdown List.length Nat.add].
  rewrite filter_app, length_app.
  change (time_sleep 1 :: repeat (time_sleep 1) n)
    with (repeat (time_sleep 1) (S n)).
  rewrite count_shutdown_sleeps. reflexivity.
Qed.

(** * Further properties *)

(** ** More on comparisons of binary64 values *)



(** No value is below itself, NaN included. *)
Lemma ltb_irrefl (x : float) : (x <? x) = false.
Proof.
  rewrite ltb_spec. unfold SFltb.
  pose proof (SFcompare_swap (Prim2SF x) (Prim2SF x)) as Hs.
  destruct (SFcompare (Prim2SF x) (Prim2SF x)) as [[ | | ]|];
    try reflexivity; discriminate.
Qed.



(** ** The orientation line *)

Lemma console_lines_imu (r : EyeTrackingStreamData) (x y z w : float) :
  eye_mask r = EyeMask.BINOCULAR ->
  imu_quaternion r = Some (x, y, z, w) ->
  filter (String.prefix "IMU:") (console_lines r) = [Spec.imu_line x y z w].
Proof.
  intros Hmask Himu. unfold console_lines. rewrite Himu, Hmask.
  destruct (gaze r) as [[[[gx gy] gz] gv]|],
           (eye_center r) as [[[[[[rx ry] rz] lx] ly] lz]|],
           (pupil_diameter r) as [[rd ld]|]; filter_lines.
Qed.

(** X1: a record at or past the last printed timestamp plus 1, with the
    BINOCULAR mask and an IMU quaternion (x, y, z, w), prints exactly one
    line opening with [IMU:], namely [IMU: x=<x>,y=<y>,z=<z>,w=<w>] in the
    [.2f] rendering, and it is the last line printed. *)
Theorem imu_line_printed_once (self : FrontendData) (et_data : EyeTrackingStreamData)
    (x y z w : float) :
  (_last_console_print self + 1 <=? timestamp et_data) = true ->
  eye_mask et_data = EyeMask.BINOCULAR ->
  imu_quaternion et_data = Some (x, y, z, w) ->
  lines_with "IMU:" (trace (_handle_et_data et_data self))
    = [Spec.imu_line x y z w] /\
  last (printed (trace (_handle_et_data et_data self))) ""
    = Spec.imu_line x y z w.
Proof.
  intros Hge Hmask Himu.
  rewrite (handle_et_data_passed self et_data (leb_not_ltb _ _ Hge)).
  cbn [trace]. rewrite lines_with_map_print, printed_map_print.
  split; [now apply console_lines_imu|].
  unfold console_lines. rewrite Himu, Hmask. cbn [EyeMask.eqb].
  rewrite !app_assoc. apply last_last.
Qed.

Lemma imu_line_printed_once_witness :
  lines_with "IMU:" (trace (_handle_et_data imu_record fresh))
    = ["IMU: x=0.00,y=0.00,z=0.00,w=1.00"] /\
  last (printed (trace (_handle_et_data imu_record fresh))) ""
    = "IMU: x=0.00,y=0.00,z=0.00,w=1.00".
Proof.
  exact (imu_line_printed_once fresh imu_record 0 0 0 1 eq_refl eq_refl eq_refl).
Defined.

(** ** What one call can print *)

Ltac split_record r :=
  let ts := fresh "ts" in let mask := fresh "mask" in
  let g := fresh "g" in let ec := fresh "ec" in
  let pd := fresh "pd" in let imu := fresh "imu" in
  destruct r as [ts mask g ec pd imu];
  cbn [gaze eye_center pupil_diameter imu_quaternion eye_mask timestamp] in *;
  destruct g as [[[[? ?] ?] ?]|],
           ec as [[[[[[? ?] ?] ?] ?] ?]|],
           pd as [[? ?]|],
           imu as [[[[? ?] ?] ?]|],
           (EyeMask.eqb mask EyeMask.BINOCULAR).

(** X2: whatever the record and the adapter state, the handler performs
    nothing but prints, each printed line opens with exactly one of the
    four tags, and no tag occurs twice: a call prints at most four
    lines. *)
Theorem one_line_per_group (self : FrontendData) (et_data : EyeTrackingStreamData) :
  let out := trace (_handle_et_data et_data self) in
  forallb is_print out = true /\
  (List.length (lines_with "Gaze=" out) <= 1)%nat /\
  (List.length (lines_with "Eye center:" out) <= 1)%nat /\
  (List.length (lines_with "Pupil diameter:" out) <= 1)%nat /\
  (List.length (lines_with "IMU:" out) <= 1)%nat /\
  (List.length (lines_with "Gaze=" out)
   + List.length (lines_with "Eye center:" out)
   + List.length (lines_with "Pupil diameter:" out)
   + List.length (lines_with "IMU:" out))%nat = List.length (printed out).
Proof.
  cbv zeta.
  destruct (timestamp et_data <? _last_console_print self + 1) eqn:Hcmp.
  - rewrite (handle_et_data_throttled self et_data Hcmp). cbn.
    repeat split; lia.
  - rewrite (handle_et_data_passed self et_data Hcmp). cbn [trace].
    rewrite !lines_with_map_print, printed_map_print.
    split.
    + induction (console_lines et_data) as [|l ls IH]; [reflexivity | exact IH].
    + clear Hcmp. unfold console_lines.
      split_record et_data;
        unfold Spec.gaze_line, Spec.eye_center_line, Spec.pupil_diameter_line,
          Spec.imu_line;
        cbn; rewrite ?prefix_nil; cbn; repeat split; lia.
Qed.

(** X3: a field group that is absent from the record is never printed:
    with no gaze there is no [Gaze=] line, with no eye center no
    [Eye center:] line, with no pupil diameter no [Pupil diameter:] line
    and with no IMU quaternion no [IMU:] line, whatever the eye mask and
    the other groups. *)
Theorem absent_group_is_not_printed (self : FrontendData) (et_data : EyeTrackingStreamData) :
  let out := trace (_handle_et_data et_data self) in
  (gaze et_data = None -> lines_with "Gaze=" out = []) /\
  (eye_center et_data = None -> lines_with "Eye center:" out = []) /\
  (pupil_diameter et_data = None -> lines_with "Pupil diameter:" out = []) /\
  (imu_quaternion et_data = None -> lines_with "IMU:" out = []).
Proof.
  cbv zeta.
  destruct (timestamp et_data <? _last_console_print self + 1) eqn:Hcmp.
  - rewrite (handle_et_data_throttled self et_data Hcmp). repeat split.
  - rewrite (handle_et_data_passed self et_data Hcmp). cbn [trace].
    rewrite !lines_with_map_print. clear Hcmp. unfold console_lines.
    split_record et_data;
      (repeat split; intros Habsent; try discriminate Habsent; filter_lines).
Qed.

Lemma absent_group_is_not_printed_witness :
  gaze imu_record = None /\
  eye_center imu_record = None /\
  printed (trace (_handle_et_data imu_record fresh))
    = ["Pupil diameter: Left=8.00 Right=7.00";
       "IMU: x=0.00,y=0.00,z=0.00,w=1.00"] /\
  lines_with "Gaze=" (trace (_handle_et_data imu_record fresh)) = [] /\
  lines_with "Eye center:" (trace (_handle_et_data imu_record fresh)) = [].
Proof.
  destruct (absent_group_is_not_printed fresh imu_record) as (Hg & Hec & _ & _).
  split; [reflexivity|]. split; [reflexivity|]. split; [reflexivity|].
  split; [apply Hg | apply Hec]; reflexivity.
Defined.

(** ** The edges of the throttle *)

(** X4: the guard is a strict comparison: a record whose timestamp is
    exactly the last printed timestamp plus 1 is not discarded; its
    groups are printed and its timestamp is stored. *)
Theorem record_exactly_one_later_is_printed (self : FrontendData)
    (et_data : EyeTrackingStreamData) :
  timestamp et_data = _last_console_print self + 1 ->
  printed (trace (_handle_et_data et_data self)) = console_lines et_data /\
  _last_console_print (final (_handle_et_data et_data self)) = timestamp et_data.
Proof.
  intros Hts.
  rewrite handle_et_data_passed by (rewrite Hts; apply ltb_irrefl).
  cbn [trace final _last_console_print]. now rewrite printed_map_print.
Qed.

Lemma record_exactly_one_later_is_printed_witness :
  printed (trace (_handle_et_data
                    {| timestamp := 6; eye_mask := EyeMask.other 1;
                       gaze := Some (0.1, 0.2, 0.3, 0.4);
                       eye_center := None; pupil_diameter := None;
                       imu_quaternion := None |} printed_at_5))
    = ["Gaze=0.10,y=0.20,z=0.30,vergence=0.40"].
Proof.
  exact (proj1 (record_exactly_one_later_is_printed printed_at_5
                  {| timestamp := 6; eye_mask := EyeMask.other 1;
                     gaze := Some (0.1, 0.2, 0.3, 0.4);
                     eye_center := None; pupil_diameter := None;
                     imu_quaternion := None |} eq_refl)).
Defined.



(** ** Streams of records *)

Lemma handle_et_data_returns (self : FrontendData) (et_data : EyeTrackingStreamData) :
  completion (_handle_et_data et_data self) = Return tt.
Proof.
  destruct (timestamp et_data <? _last_console_print self + 1) eqn:Hcmp.
  - now rewrite (handle_et_data_throttled self et_data Hcmp).
  - now rewrite (handle_et_data_passed self et_data Hcmp).
Qed.

Lemma handle_et_data_prints_only (self : FrontendData) (et_data : EyeTrackingStreamData) :
  forallb is_print (trace (_handle_et_data et_data self)) = true.
Proof.
  destruct (timestamp et_data <? _last_console_print self + 1) eqn:Hcmp.
  - now rewrite (handle_et_data_throttled self et_data Hcmp).
  - rewrite (handle_et_data_passed self et_data Hcmp). cbn [trace].
    induction (console_lines et_data) as [|l ls IH]; [reflexivity | exact IH].
Qed.

Lemma handle_et_data_keeps_api (self : FrontendData) (et_data : EyeTrackingStreamData) :
  _api (final (_handle_et_data et_data self)) = _api self.
Proof.
  destruct (timestamp et_data <? _last_console_print self + 1) eqn:Hcmp.
  - now rewrite (handle_et_data_throttled self et_data Hcmp).
  - now rewrite (handle_et_data_passed self et_data Hcmp).
Qed.

(** Delivery of a non-empty stream: the first call, then the rest from
    the state it leaves. *)
Lemma deliver_cons (r : EyeTrackingStreamData) (rs : list EyeTrackingStreamData)
    (self : FrontendData) :
  deliver (r :: rs) self =
    mkRun (trace (_handle_et_data r self)
           ++ trace (deliver rs (final (_handle_et_data r self))))%list
          (final (deliver rs (final (_handle_et_data r self))))
          (completion (deliver rs (final (_handle_et_data r self)))).
Proof.
  cbn [deliver]. unfold bind at 1.
  now rewrite handle_et_data_returns.
Qed.

(** X6: after a record has been let through, a burst of any length whose
    timestamps are all below that record's timestamp plus 1 prints
    nothing and leaves the adapter as it was: the whole stream prints
    what the first record alone prints. *)
Theorem burst_after_a_print_is_silent (self : FrontendData)
    (et_data : EyeTrackingStreamData) (burst : list EyeTrackingStreamData) :
  (_last_console_print self + 1 <=? timestamp et_data) = true ->
  Forall (fun next => (timestamp next <? timestamp et_data + 1) = true) burst ->
  trace (deliver burst (final (_handle_et_data et_data self))) = [] /\
  final (deliver burst (final (_handle_et_data et_data self)))
    = final (_handle_et_data et_data self) /\
  printed (trace (deliver (et_data :: burst) self)) = console_lines et_data.
Proof.
  intros Hge Hburst.
  assert (Hsilent : deliver burst (final (_handle_et_data et_data self))
                    = mkRun [] (final (_handle_et_data et_data self)) (Return tt)).
  { rewrite (handle_et_data_passed self et_data (leb_not_ltb _ _ Hge)).
    cbn [final].
    induction Hburst as [|next burst' Hnext _ IH]; [reflexivity|].
    rewrite deliver_cons.
    rewrite (handle_et_data_throttled
               {| _api := _api self; _last_console_print := timestamp et_data |}
               next Hnext).
    cbn [trace final].
    rewrite IH. reflexivity. }
  rewrite deliver_cons, Hsilent. cbn [trace final].
  repeat split.
  rewrite app_nil_r.
  rewrite (handle_et_data_passed self et_data (leb_not_ltb _ _ Hge)).
  cbn [trace]. apply printed_map_print.
Qed.

Lemma burst_after_a_print_is_silent_witness :
  trace (deliver [gaze_record; early_record; monocular_record]
           (final (_handle_et_data empty_record fresh))) = [] /\
  printed (trace (deliver [imu_record; gaze_record; early_record; imu_record] fresh))
    = ["Pupil diameter: Left=8.00 Right=7.00";
       "IMU: x=0.00,y=0.00,z=0.00,w=1.00"].
Proof.
  split.
  - apply (burst_after_a_print_is_silent fresh empty_record
             [gaze_record; early_record; monocular_record] eq_refl).
    repeat constructor.
  - apply (burst_after_a_print_is_silent fresh imu_record
             [gaze_record; early_record; imu_record] eq_refl).
    repeat constructor.
Defined.

(** X7: however many records are delivered and whatever they hold, the
    run returns normally, does nothing but print, never writes [_api],
    and the stored timestamp at the end is either the one it started
    with or the timestamp of one of the records. *)
Theorem delivery_invariant (records : list EyeTrackingStreamData) (self : FrontendData) :
  completion (deliver records self) = Return tt /\
  forallb is_print (trace (deliver records self)) = true /\
  _api (final (deliver records self)) = _api self /\
  (_last_console_print (final (deliver records self)) = _last_console_print self \/
   In (_last_console_print (final (deliver records self)))
      (map timestamp records)).
Proof.
  revert self. induction records as [|r rs IH]; intros self.
  - cbn. auto.
  - rewrite deliver_cons. cbn [completion trace final].
    destruct (IH (final (_handle_et_data r self))) as (Hc & Hp & Ha & Hl).
    pose proof (handle_et_data_prints_only self r) as Hpr.
    pose proof (handle_et_data_keeps_api self r) as Hapi.
    repeat split.
    + exact Hc.
    + rewrite forallb_app, Hpr, Hp. reflexivity.
    + now rewrite Ha.
    + cbn [map In].
      destruct Hl as [Hl | Hl]; [|now right; right].
      rewrite Hl.
      destruct (timestamp r <? _last_console_print self + 1) eqn:Hcmp.
      * left. now rewrite (handle_et_data_throttled self r Hcmp).
      * right. left. now rewrite (handle_et_data_passed self r Hcmp).
Qed.

(** ** From construction to the first record *)

(** X8: on an adapter just constructed, for any device name, the connect
    handler followed by a first telemetry record prints
    [Tracker connected] and then the record's lines when the record's
    timestamp is at least 1, and [Tracker connected] alone when it is
    below 1: the throttle starts at 0. *)
Theorem first_record_after_connect (devname : string) (et_data : EyeTrackingStreamData) :
  ((1 <=? timestamp et_data) = true ->
   printed (trace ((_handle_tracker_connect ;; _handle_et_data et_data)
                     (final (__init__ devname))))
     = "Tracker connected" :: console_lines et_data) /\
  ((timestamp et_data <? 1) = true ->
   printed (trace ((_handle_tracker_connect ;; _handle_et_data et_data)
                     (final (__init__ devname))))
     = ["Tracker connected"]).
Proof.
  unfold bind. cbn [_handle_tracker_connect __init__ final completion trace
                    perform bind].
  split; intros Hts.
  - rewrite (handle_et_data_passed
               {| _api := devname; _last_console_print := 0 |} et_data
               (leb_not_ltb _ _ Hts)).
    cbn [trace printed flat_map app]. f_equal.
    apply printed_map_print.
  - rewrite (handle_et_data_throttled
               {| _api := devname; _last_console_print := 0 |} et_data Hts).
    reflexivity.
Qed.

Lemma first_record_after_connect_witness :
  printed (trace ((_handle_tracker_connect ;; _handle_et_data gaze_record)
                    (final (__init__ "AA:BB:CC"))))
    = ["Tracker connected"; "Gaze=0.10,y=0.20,z=0.30,vergence=0.40"] /\
  printed (trace ((_handle_tracker_connect ;; _handle_et_data early_record)
                    (final (__init__ "AA:BB:CC"))))
    = ["Tracker connected"].
Proof.
  split.
  - exact (proj1 (first_record_after_connect "AA:BB:CC" gaze_record) eq_refl).
  - exact (proj2 (first_record_after_connect "AA:BB:CC" early_record) eq_refl).
Defined.

(** ** Events with arguments *)

(** X9: given at least one extra argument, the event handler never
    raises; for BLINK, EYE_CLOSED and EYE_OPENED it prints exactly one
    line, the type's label followed by the timestamp and the first extra
    argument, and any further arguments are ignored; for every other type
    it prints nothing. *)
Theorem event_line_reads_first_argument (float_repr : float -> string)
    (event_type : Events.t) (timestamp first : PyObj) (rest : list PyObj) :
  _handle_events float_repr event_type timestamp (first :: rest) tt =
    mkRun match event_label event_type with
          | Some label =>
              [print (label ++ str float_repr timestamp ++ " "
                      ++ str float_repr first)]
          | None => []
          end tt (Return tt).
Proof.
  destruct event_type; reflexivity.
Qed.

(** ** Other ways out of the foreground loop *)

Lemma no_shutdown_in_prefix (devname : string) (n : nat) :
  filter is_api_shutdown
    (trace (__init__ devname) ++ repeat (time_sleep 1) n)%list = [].
Proof.
  rewrite filter_app. cbn [__init__ trace filter is_api_shutdown app].
  induction n as [|n IH]; [reflexivity | exact IH].
Qed.

(** X10: a SystemExit raised in the sleep loop is handled like a
    KeyboardInterrupt: after any number of quiet turns, [shutdown] is
    called exactly once, last, [main] returns normally and the exit
    status is 0. *)
Theorem system_exit_shuts_down_once (devname : string) (n : nat) (rest : list Turn) :
  exists run : Run Effect FrontendData unit,
    main devname (repeat wakes n ++ interrupted SystemExit :: rest) = Some run /\
    trace run = (trace (__init__ devname)
                 ++ repeat (time_sleep 1) (S n) ++ [api_shutdown])%list /\
    List.length (filter is_api_shutdown (trace run)) = 1%nat /\
    completion run = Return tt /\
    exit_code (completion run) = 0%Z.
Proof.
  unfold main. rewrite sleep_loop_until_raise.
  eexists. split; [reflexivity|].
  cbn [trace completion final try_except_interrupt shutdown perform].
  repeat split.
  rewrite app_assoc, filter_app, no_shutdown_in_prefix. reflexivity.
Qed.



Lemma sleep_loop_completes (script : list Turn) (self : FrontendData) :
  sleep_loop script self <> None <-> existsb is_interrupted script = true.
Proof.
  induction script as [|[|e] script IH]; cbn [sleep_loop existsb is_interrupted orb].
  - split; [intros H; now contradiction H | discriminate].
  - rewrite <- IH. destruct (sleep_loop script self); split; intros H;
      try discriminate; try (now contradiction H); exact H.
  - split; [reflexivity | discriminate].
Qed.

(** X12: the foreground loop has no exit of its own: under a script of
    turns, [main] completes if and only if some turn raises an
    exception. *)
Theorem main_completes_only_on_exception (devname : string) (script : list Turn) :
  main devname script <> None <-> existsb is_interrupted script = true.
Proof.
  rewrite <- (sleep_loop_completes script (final (__init__ devname))).
  unfold main.
  destruct (sleep_loop script (final (__init__ devname))); split; intros H;
    try discriminate; try (now contradiction H); exact H.
Qed.

(** ** The two decimals *)

(** X14: the number of hundredths that [.2f] prints for the value
    m * 2^e is correctly rounded: for a non-negative exponent it is the
    value times 100 exactly; for a negative exponent -p it differs from
    the value times 100 by at most one half, and when the value times 100
    lies exactly half-way between two integers the even one is taken. *)
Theorem hundredths_is_correctly_rounded (m : positive) (e : Z) :
  match e with
  | Zneg p =>
      (2 * (PyFloat.hundredths m e * 2 ^ Npos p)
         <= 2 * (Npos m * 100) + 2 ^ Npos p)%N /\
      (2 * (Npos m * 100)
         <= 2 * (PyFloat.hundredths m e * 2 ^ Npos p) + 2 ^ Npos p)%N /\
      ((2 * ((Npos m * 100) mod 2 ^ Npos p) = 2 ^ Npos p)%N ->
       N.even (PyFloat.hundredths m e) = true)
  | _ => PyFloat.hundredths m e = (Npos m * 2 ^ Z.to_N e * 100)%N
  end.
Proof.
  destruct e as [|p|p].
  - now apply hundredths_exact.
  - now apply hundredths_exact.
  - destruct (hundredths_nearest m p) as [Hup Hdown].
    repeat split; [exact Hup | exact Hdown | apply hundredths_tie_even].
Qed.

